(** * nucleus.io.sam: SAM/BAM readers and writers

    A shallow embedding of [nucleus/io/sam.py]: the in-memory reader
    ([InMemorySamReader]), the constructor of the native reader
    ([NativeSamReader.__init__]) and the native writer stub
    ([NativeSamWriter]), followed by the properties the specification
    states about them. *)

From Equations Require Import Equations.
From Stdlib Require Import ZArith PrimFloat.
From stdpp Require Import base option list strings.

Set Warnings "-inexact-float".
Local Open Scope Z_scope.

(** ** Genomic ranges *)

(** [nucleus.genomics.v1.Range]: a half-open interval [[start, end)] on a
    named reference sequence. *)
Record Range : Type := make_range {
  reference_name : string;
  start : Z;
  end_ : Z;
}.

Module ranges.

(** Modelled from the spec: [nucleus.util.ranges.ranges_overlap] is not part
    of the sources at hand.  Section 4.1 of the specification gives its
    contract: two half-open intervals overlap iff they lie on the same
    reference sequence and [region.start < span.end] and
    [span.start < region.end]. *)
Definition ranges_overlap (i1 i2 : Range) : bool :=
  String.eqb (reference_name i1) (reference_name i2)
  && (start i1 <? end_ i2)
  && (start i2 <? end_ i1).

(** The same contract as a proposition. *)
Definition overlaps (region span : Range) : Prop :=
  reference_name region = reference_name span
  ∧ start region < end_ span
  ∧ start span < end_ region.

#[global] Instance overlaps_dec region span : Decision (overlaps region span).
Proof. unfold overlaps. apply _. Defined.

End ranges.

(** ** Python generators over a list

    [query] returns a generator expression
    [(read for read in self.reads if cond(read))].  Its state is the list
    iterator it draws from, kept here as the elements not yet visited.  One
    call of [next] pulls elements until one satisfies the condition (it is
    yielded, and the generator is suspended on the rest) or the iterator is
    exhausted ([StopIteration], here [None]). *)
Section Generator.

Context {A : Type}.

Record genexpr : Type := Genexpr {
  gen_cond : A → bool;
  gen_iter : list A;
}.

Fixpoint next_from (cond : A → bool) (it : list A) : option (A * list A) :=
  match it with
  | [] => None
  | x :: rest => if cond x then Some (x, rest) else next_from cond rest
  end.

Definition next (g : genexpr) : option (A * genexpr) :=
  match next_from (gen_cond g) (gen_iter g) with
  | None => None
  | Some (x, rest) => Some (x, Genexpr (gen_cond g) rest)
  end.

(** Keeps the outcome of a call together with the equation that says where
    it came from, for the termination argument of [consume]. *)
Definition inspect {B : Type} (b : B) : {b' : B | b = b'} :=
  exist _ b eq_refl.

(** [list(g)], or a [for] loop run to its end: call [next] until
    [StopIteration]. *)
Equations? consume (g : genexpr) : list A by wf (length (gen_iter g)) lt :=
  consume g with inspect (next g) := {
    | exist _ None _ => [];
    | exist _ (Some (x, g')) E => x :: consume g' }.
Proof.
  (* every [next] that yields leaves a strictly shorter iterator behind *)
  unfold next in E. destruct g as [cond it]. simpl in *.
  destruct (next_from cond it) as [[y rest]|] eqn:Hnext; [|discriminate].
  injection E as _ <-. simpl. clear consume.
  revert y rest Hnext.
  induction it as [|z it IH]; intros y rest; simpl; [discriminate|].
  destruct (cond z).
  - intros [= _ <-]. lia.
  - intros H. apply IH in H. lia.
Qed.

End Generator.

Arguments genexpr : clear implicits.

(** ** InMemorySamReader *)

Section InMemory.

(** [nucleus.genomics.v1.Read] is a protocol buffer defined elsewhere; the
    reader only ever hands a read to [utils.read_range], which derives the
    genomic span the read is aligned to. *)
Context {Read : Type} (read_range : Read → Range).

(** The two attributes of an [InMemorySamReader] object. *)
Record InMemorySamReader : Type := {
  reads : list Read;
  is_sorted : bool;
}.

(** [replace_reads] assigns both attributes of [self]; the state after the
    call is returned. *)
Definition replace_reads (self : InMemorySamReader)
    (new_reads : list Read) (new_is_sorted : bool) : InMemorySamReader :=
  {| reads := new_reads; is_sorted := new_is_sorted |}.

(** [__init__] starts from an object without attributes and only calls
    [replace_reads]. *)
Definition InMemorySamReader_init (rs : list Read) (sorted : bool)
    : InMemorySamReader :=
  replace_reads {| reads := []; is_sorted := false |} rs sorted.

Definition iterate (self : InMemorySamReader) : list Read :=
  reads self.

Definition query (self : InMemorySamReader) (region : Range) : genexpr Read :=
  Genexpr (λ read, ranges.ranges_overlap region (read_range read))
          (reads self).

End InMemory.

Arguments InMemorySamReader : clear implicits.

(** ** Python values used by the native reader *)

(** [str.endswith]: a Python [str] is kept as the string of its UTF-8
    bytes, on which a suffix test agrees with the one on code points. *)
Definition endswith (s suffix : string) : bool :=
  let n := String.length s in
  let m := String.length suffix in
  (m <=? n)%nat && String.eqb (String.substring (n - m) m s) suffix.

(** [str.encode('utf8')] is then the list of these bytes.  A [str] that
    has no UTF-8 encoding (a lone surrogate), on which [encode] raises, is
    not a value of the type. *)
Definition encode_utf8 (s : string) : list Byte.byte :=
  String.list_byte_of_string s.

(** A Python number: [downsample_fraction] is documented as a float, the
    protocol-buffer default the code guards against is the integer [0]. *)
Inductive pynum : Type :=
| PyInt (z : Z)
| PyFloat (f : float).

(** [x != 0]. *)
Definition ne_zero (x : pynum) : bool :=
  match x with
  | PyInt z => negb (z =? 0)
  | PyFloat f => negb (PrimFloat.eqb f 0%float)
  end.

(** [0.0 < x]; Python compares an integer with a float exactly. *)
Definition zero_lt (x : pynum) : bool :=
  match x with
  | PyInt z => 0 <? z
  | PyFloat f => PrimFloat.ltb 0%float f
  end.

(** [x <= 1.0]. *)
Definition le_one (x : pynum) : bool :=
  match x with
  | PyInt z => z <=? 1
  | PyFloat f => PrimFloat.leb f 1%float
  end.

(** [hts_block_size or 0], on [None] or an integer. *)
Definition or_zero (x : option Z) : Z :=
  match x with
  | None => 0
  | Some z => if z =? 0 then 0 else z
  end.

Inductive pyval : Type :=
| PyStr (s : string)
| PyNum (x : pynum).

Inductive exn_class : Type :=
| ValueError
| ImportError
| ModuleNotFoundError
| NotImplementedError
| OtherError (name : string).

(** An exception object: its class and the arguments it was built with. *)
Record exn : Type := Exception {
  exn_cls : exn_class;
  exn_args : list pyval;
}.

(** What [except ImportError] catches: the class and its subclass. *)
Definition is_ImportError (e : exn) : bool :=
  match exn_cls e with
  | ImportError | ModuleNotFoundError => true
  | _ => false
  end.

(** [reads_pb2.SamReaderOptions.AuxFieldHandling]. *)
Inductive AuxFieldHandling : Type :=
| SKIP_AUX_FIELDS
| PARSE_ALL_AUX_FIELDS.

(** Fixed random seed produced with 'od -vAn -N4 -tu4 < /dev/urandom'. *)
Definition default_random_seed : Z := 2928130004.

(** ** NativeSamReader and NativeSamWriter *)

Section Native.

(** Protocol buffers and backend objects the constructor only passes on. *)
Context {ReadRequirements SamHeader NativeBackend TfbamBackend : Type}.
Context {Proto WriterBackend : Type}.

(** A [reads_pb2.SamReaderOptions] message, by the keyword arguments it
    was built from.  Its two integer fields are bounded; building the
    message ([new_SamReaderOptions] below) fails for a value a field cannot
    hold, so a message that exists holds values within the bounds. *)
Record SamReaderOptions : Type := {
  read_requirements : option ReadRequirements;
  aux_field_handling : AuxFieldHandling;
  hts_block_size : Z;
  downsample_fraction : option pynum;
  random_seed : Z;
}.

(** The arguments of [tfbam_reader.make_sam_reader]. *)
Record TfbamArgs : Type := {
  tfbam_input_path : string;
  tfbam_read_requirements : option ReadRequirements;
  tfbam_unused_block_size : option Z;
  tfbam_downsample_fraction : option pynum;
  tfbam_random_seed : option Z;
}.

(** What lies outside this module: the optional [tfbam_lib] package
    ([None] when it is not installed), the native [sam_reader.SamReader]
    with its [from_file] and its [header] attribute, and the generated
    class [reads_pb2.SamReaderOptions].

    The widths of the integer fields of that class are declared in
    [reads.proto], which is not part of this module: what the class raises
    for an [hts_block_size] and a [random_seed] it cannot hold ([None] when
    it accepts both) is [SamReaderOptions_error].  The other keywords cannot
    make it raise: a requirement message, an enum value, and a fraction that
    is unset, zero or within (0.0, 1.0].  The class accepts what this module
    passes of its own accord, the block size [0] of [hts_block_size or 0]
    and the fixed seed. *)
Record Env : Type := {
  tfbam_lib : option (TfbamArgs → exn + TfbamBackend);
  from_file : list Byte.byte → SamReaderOptions → exn + NativeBackend;
  backend_header : NativeBackend → SamHeader;
  SamReaderOptions_error : Z → Z → option exn;
  SamReaderOptions_defaults :
    SamReaderOptions_error 0 default_random_seed = None;
}.

(** Calls that leave this module, in the order they are made. *)
Inductive event : Type :=
| Import (module_name : string)
| MakeSamReader (args : TfbamArgs)
| FromFile (path : list Byte.byte) (options : SamReaderOptions).

(** Computations that log their external calls and either raise or
    return. *)
Definition M (A : Type) : Type := list event → list event * (exn + A).

Definition ret {A} (a : A) : M A := λ t, (t, inr a).

Definition raise {A} (e : exn) : M A := λ t, (t, inl e).

Definition bind {A B} (m : M A) (k : A → M B) : M B :=
  λ t, match m t with
       | (t', inl e) => (t', inl e)
       | (t', inr a) => k a t'
       end.

Notation "x <- m ;; k" := (bind m (λ x, k))
  (at level 100, m at next level, right associativity, only parsing).

Definition external {A} (ev : event) (outcome : exn + A) : M A :=
  λ t, (t ++ [ev], outcome).

(** [try: body except ImportError: handler]. *)
Definition try_except_ImportError {A} (body handler : M A) : M A :=
  λ t, match body t with
       | (t', inl e) => if is_ImportError e then handler t' else (t', inl e)
       | r => r
       end.

Context (env : Env).

(** [from tfbam_lib import tfbam_reader]. *)
Definition import_tfbam_reader : M (TfbamArgs → exn + TfbamBackend) :=
  external (Import "tfbam_lib")
    match tfbam_lib env with
    | Some make_sam_reader => inr make_sam_reader
    | None =>
        inl (Exception ModuleNotFoundError
               [PyStr "No module named 'tfbam_lib'"])
    end.

(** [reads_pb2.SamReaderOptions(...)]: the message, or the exception of a
    field that rejects its value. *)
Definition new_SamReaderOptions (kwargs : SamReaderOptions)
    : M SamReaderOptions :=
  match SamReaderOptions_error env (hts_block_size kwargs)
          (random_seed kwargs) with
  | Some e => raise e
  | None => ret kwargs
  end.

(** The attributes [__init__] assigns.  [header] is set on the native
    branch only. *)
Record NativeSamReader : Type := {
  _reader : TfbamBackend + NativeBackend;
  header : option SamHeader;
}.

(** [__init__], as the state of [self] it leaves behind.  Its last
    statement calls the initialiser of [genomics_reader.GenomicsReader],
    which is outside this module and touches neither attribute. *)
Definition NativeSamReader_init (input_path : string)
    (read_requirements : option ReadRequirements)
    (parse_aux_fields : bool)
    (hts_block_size : option Z)
    (downsample_fraction : option pynum)
    (random_seed : option Z) : M NativeSamReader :=
  if endswith input_path ".tfbam" then
    (* Delayed loading of tfbam_lib. *)
    reader <-
      try_except_ImportError
        (make_sam_reader <- import_tfbam_reader ;;
         let args :=
           {| tfbam_input_path := input_path;
              tfbam_read_requirements := read_requirements;
              tfbam_unused_block_size := hts_block_size;
              tfbam_downsample_fraction := downsample_fraction;
              tfbam_random_seed := random_seed |} in
         external (MakeSamReader args) (make_sam_reader args))
        (raise (Exception ImportError
           [PyStr "tfbam_lib module not found, cannot read .tfbam files."])) ;;
    ret {| _reader := inl reader; header := None |}
  else
    let aux_field_handling :=
      if parse_aux_fields then PARSE_ALL_AUX_FIELDS else SKIP_AUX_FIELDS in
    (* We make 0 be a valid value that means "keep all reads" so that proto
       defaults (=0) do not omit all reads. *)
    _ <- match downsample_fraction with
         | Some fraction =>
             if ne_zero fraction then
               if negb (zero_lt fraction && le_one fraction) then
                 raise (Exception ValueError
                   [PyStr "downsample_fraction must be in the interval (0.0, 1.0]";
                    PyNum fraction])
               else ret ()
             else ret ()
         | None => ret ()
         end ;;
    let random_seed :=
      match random_seed with
      | None => default_random_seed
      | Some seed => seed
      end in
    let path := encode_utf8 input_path in
    options <-
      new_SamReaderOptions
        {| read_requirements := read_requirements;
           aux_field_handling := aux_field_handling;
           hts_block_size := or_zero hts_block_size;
           downsample_fraction := downsample_fraction;
           random_seed := random_seed |} ;;
    reader <- external (FromFile path options) (from_file env path options) ;;
    ret {| _reader := inr reader;
           header := Some (backend_header env reader) |}.

(** [NativeSamWriter] would keep its backend in [_writer]; no method ever
    assigns it. *)
Record NativeSamWriter : Type := {
  _writer : WriterBackend;
}.

Definition NativeSamWriter_init (output_path : string) (header : SamHeader)
    : M NativeSamWriter :=
  raise (Exception NotImplementedError []).

Definition NativeSamWriter_write (self : NativeSamWriter) (proto : Proto)
    : M () :=
  raise (Exception NotImplementedError []).

(** [SamWriter._native_writer]: what the dispatching writer calls for a
    path that is not a TFRecord. *)
Definition SamWriter_native_writer (output_path : string) (header : SamHeader)
    : M NativeSamWriter :=
  NativeSamWriter_init output_path header.

End Native.

Arguments SamReaderOptions : clear implicits.
Arguments TfbamArgs : clear implicits.
Arguments NativeSamReader : clear implicits.
Arguments NativeSamWriter : clear implicits.
Arguments event : clear implicits.
Arguments Env : clear implicits.

(** ** SamReader._native_reader *)

Section NativeDispatch.

Context {ReadRequirements SamHeader NativeBackend TfbamBackend : Type}.

(** The keyword arguments [_native_reader] is called with: each keyword of
    [NativeSamReader.__init__] is given ([Some]) or left out ([None]).  A
    keyword the constructor does not know, which Python answers with
    [TypeError], has no place in the record. *)
Record NativeReaderKwargs : Type := {
  kw_read_requirements : option (option ReadRequirements);
  kw_parse_aux_fields : option bool;
  kw_hts_block_size : option (option Z);
  kw_downsample_fraction : option (option pynum);
  kw_random_seed : option (option Z);
}.

(** [SamReader._native_reader]: [NativeSamReader(input_path, **kwargs)],
    where a keyword left out takes the default of the constructor's
    signature. *)
Definition SamReader_native_reader
    (env : Env ReadRequirements SamHeader NativeBackend TfbamBackend)
    (input_path : string) (kwargs : NativeReaderKwargs)
    : M (NativeSamReader SamHeader NativeBackend TfbamBackend) :=
  NativeSamReader_init env input_path
    (default None (kw_read_requirements kwargs))
    (default false (kw_parse_aux_fields kwargs))
    (default None (kw_hts_block_size kwargs))
    (default None (kw_downsample_fraction kwargs))
    (default None (kw_random_seed kwargs)).

End NativeDispatch.

Arguments NativeReaderKwargs : clear implicits.

(** ** The reads of the specification's example

    [A(chr1,10,20)], [B(chr1,30,40)] and [C(chr2,10,20)]: a read is given by
    its name and the span it is aligned to, which is what [read_range]
    derives. *)
Module example.

Record read : Type := Read {
  fragment_name : string;
  aligned_span : Range;
}.

Definition read_range (r : read) : Range := aligned_span r.

Definition A : read := Read "A" (make_range "chr1" 10 20).
Definition B : read := Read "B" (make_range "chr1" 30 40).
Definition C : read := Read "C" (make_range "chr2" 10 20).

(** An options class with a signed 32-bit block size and a signed 64-bit
    seed, as one [reads.proto] could declare them. *)
Definition int32_int64_error (block_size seed : Z) : option exn :=
  if (- 2 ^ 31 <=? block_size) && (block_size <? 2 ^ 31)
     && (- 2 ^ 63 <=? seed) && (seed <? 2 ^ 63)
  then None
  else Some (Exception ValueError [PyStr "Value out of range"]).

(** Two deployments to run the native reader in, with one-element types
    for everything it only passes on: [tfbam_lib] not installed (as in the
    open-source package), and installed with a backend that opens
    anything. *)
Definition env_without_tfbam : Env () () () () :=
  {| tfbam_lib := None;
     from_file := λ _ _, inr ();
     backend_header := λ _, ();
     SamReaderOptions_error := int32_int64_error;
     SamReaderOptions_defaults := eq_refl |}.

Definition env_with_tfbam : Env () () () () :=
  {| tfbam_lib := Some (λ _, inr ());
     from_file := λ _ _, inr ();
     backend_header := λ _, ();
     SamReaderOptions_error := int32_int64_error;
     SamReaderOptions_defaults := eq_refl |}.

(** A deployment whose native backend cannot open anything and says so
    with a [ValueError] of its own. *)
Definition env_unreadable : Env () () () () :=
  {| tfbam_lib := None;
     from_file := λ _ _,
       inl (Exception ValueError [PyStr "Not found"]);
     backend_header := λ _, ();
     SamReaderOptions_error := int32_int64_error;
     SamReaderOptions_defaults := eq_refl |}.

End example.

(** * Properties *)

(** ** Overlap and generators *)

Lemma ranges_overlap_spec region span :
  ranges.ranges_overlap region span = true ↔ ranges.overlaps region span.
Proof.
  unfold ranges.ranges_overlap, ranges.overlaps.
  rewrite !andb_true_iff, String.eqb_eq, !Z.ltb_lt. tauto.
Qed.

(** The contract is symmetric in its two intervals. *)
Lemma ranges_overlap_sym i1 i2 :
  ranges.ranges_overlap i1 i2 = ranges.ranges_overlap i2 i1.
Proof.
  apply eq_true_iff_eq. rewrite !ranges_overlap_spec.
  unfold ranges.overlaps. intuition congruence.
Qed.

Lemma consume_next {A} (g : genexpr A) :
  consume g =
  match next g with
  | None => []
  | Some (x, g') => x :: consume g'
  end.
Proof.
  funelim (consume g).
  - rewrite E. reflexivity.
  - rewrite e. reflexivity.
Qed.

(** Running a generator expression over a list to its end gives the
    elements that satisfy its condition, in the order of the list. *)
Lemma consume_filter {A} (P : A → Prop) `{!∀ x, Decision (P x)} cond it :
  (∀ x, cond x = true ↔ P x) →
  consume (Genexpr cond it) = filter P it.
Proof.
  intros Hcond. induction it as [|x it IH].
  - rewrite consume_next. reflexivity.
  - rewrite consume_next. unfold next. simpl.
    destruct (cond x) eqn:Ex.
    + rewrite filter_cons_True by (apply Hcond, Ex).
      f_equal. exact IH.
    + rewrite filter_cons_False by (rewrite <- Hcond, Ex; discriminate).
      rewrite <- IH, (consume_next (Genexpr cond it)). reflexivity.
Qed.

(** A generator that has raised [StopIteration] has visited every element
    of the list, and none of the remaining ones satisfied the condition. *)
Lemma next_from_None {A} (cond : A → bool) it :
  next_from cond it = None ↔ Forall (λ x, cond x = false) it.
Proof.
  induction it as [|x it IH]; simpl.
  - split; [constructor | reflexivity].
  - destruct (cond x) eqn:Ex.
    + split; [discriminate | intros H; inversion H; congruence].
    + rewrite IH. split; [by constructor | by inversion 1].
Qed.

Section InMemoryFacts.

Context {Read : Type} (read_range : Read → Range).

Lemma query_filter (self : InMemorySamReader Read) region :
  consume (query read_range self region)
  = filter (λ read, ranges.overlaps region (read_range read)) (reads self).
Proof.
  unfold query. apply consume_filter.
  intros read. apply ranges_overlap_spec.
Qed.

Lemma query_is_sorted_irrelevant (rs : list Read) sorted sorted' region :
  query read_range (InMemorySamReader_init rs sorted) region
  = query read_range (InMemorySamReader_init rs sorted') region.
Proof. reflexivity. Qed.

End InMemoryFacts.

(** ** InMemorySamReader *)

(** C1. [query(region)] yields exactly the stored reads whose derived span
    overlaps the region, in stored order, whatever [is_sorted] says; on the
    stored list [A(chr1,10,20), B(chr1,30,40), C(chr2,10,20)] the region
    [chr1:15-35] gives [A, B] (and a permutation of it for any other order
    of the list), and [chr3:0-100] gives nothing. *)
Theorem InMemorySamReader_query_overlapping_reads :
  (∀ (Read : Type) (read_range : Read → Range)
     (self : InMemorySamReader Read) (region : Range),
     let out := consume (query read_range self region) in
     out = filter (λ read, ranges.overlaps region (read_range read))
                  (reads self)
     ∧ out `sublist_of` reads self
     ∧ (∀ read, read ∈ out ↔
          read ∈ reads self ∧ ranges.overlaps region (read_range read))
     ∧ (∀ sorted,
          consume (query read_range
                     (replace_reads self (reads self) sorted) region) = out))
  ∧ (let reader :=
       InMemorySamReader_init [example.A; example.B; example.C] false in
     consume (query example.read_range reader (make_range "chr1" 15 35))
     = [example.A; example.B]
     ∧ consume (query example.read_range reader (make_range "chr3" 0 100))
       = [])
  ∧ (∀ rs, rs ≡ₚ [example.A; example.B; example.C] →
       consume (query example.read_range (InMemorySamReader_init rs false)
                  (make_range "chr1" 15 35))
       ≡ₚ [example.A; example.B]).
Proof.
  split; [|split].
  - intros Read read_range self region out. subst out.
    rewrite query_filter. split; [reflexivity|]. split; [|split].
    + apply sublist_filter.
    + intros read. rewrite list_elem_of_filter. tauto.
    + intros sorted. rewrite query_filter. reflexivity.
  - split; reflexivity.
  - intros rs Hperm. rewrite query_filter. simpl.
    rewrite Hperm. reflexivity.
Qed.

(** C6. What [query(region)] yields is a sub-multiset of what [iterate()]
    yields: it is [iterate()] with the reads that do not overlap the region
    left out, and nothing else decides membership. *)
Theorem InMemorySamReader_query_within_iterate :
  ∀ (Read : Type) (read_range : Read → Range)
    (self : InMemorySamReader Read) (region : Range),
    consume (query read_range self region) ⊆+ iterate self
    ∧ consume (query read_range self region)
      = filter (λ read, ranges.overlaps region (read_range read))
               (iterate self)
    ∧ (∀ read, read ∈ consume (query read_range self region) ↔
         read ∈ iterate self ∧ ranges.overlaps region (read_range read)).
Proof.
  intros Read read_range self region. rewrite query_filter.
  unfold iterate. split; [|split].
  - apply sublist_submseteq, sublist_filter.
  - reflexivity.
  - intros read. rewrite list_elem_of_filter. tauto.
Qed.

(** C7. [iterate()] is the stored list itself, in its order: nothing is
    dropped, added or reordered, whatever list the reader was built from
    or last given. *)
Theorem InMemorySamReader_iterate_stored_list :
  ∀ (Read : Type) (self : InMemorySamReader Read)
    (rs : list Read) (sorted : bool),
    iterate self = reads self
    ∧ iterate (InMemorySamReader_init rs sorted) = rs
    ∧ iterate (replace_reads self rs sorted) = rs.
Proof. intros. repeat split. Qed.

(** C8. [replace_reads] leaves nothing of the prior state: afterwards
    [iterate()] is the new list, [query] is a scan of the new list alone
    (the same for every prior state), and with the empty list both yield
    nothing. *)
Theorem InMemorySamReader_replace_reads_replaces :
  ∀ (Read : Type) (read_range : Read → Range)
    (self : InMemorySamReader Read) (rs : list Read) (sorted : bool),
    let self' := replace_reads self rs sorted in
    reads self' = rs
    ∧ is_sorted self' = sorted
    ∧ iterate self' = rs
    ∧ (∀ region,
         consume (query read_range self' region)
         = filter (λ read, ranges.overlaps region (read_range read)) rs)
    ∧ (∀ other region,
         query read_range (replace_reads other rs sorted) region
         = query read_range self' region)
    ∧ iterate (replace_reads self [] sorted) = []
    ∧ (∀ region,
         consume (query read_range (replace_reads self [] sorted) region)
         = []).
Proof.
  intros Read read_range self rs sorted self'. subst self'.
  repeat split.
  intros region. apply query_filter.
Qed.

(** ** Strings *)

Lemma substring_whole s : String.substring 0 (String.length s) s = s.
Proof. induction s as [|c s IH]; simpl; congruence. Qed.

Lemma substring_skip_prefix p s m :
  String.substring (String.length p) m (p +:+ s) = String.substring 0 m s.
Proof. induction p as [|c p IH]; simpl; [reflexivity | exact IH]. Qed.

Lemma length_append p s :
  String.length (p +:+ s) = (String.length p + String.length s)%nat.
Proof. induction p as [|c p IH]; simpl; [reflexivity | by rewrite IH]. Qed.

Lemma substring_split s k :
  (k ≤ String.length s)%nat →
  s = String.substring 0 k s
      +:+ String.substring k (String.length s - k) s.
Proof.
  revert k. induction s as [|c s IH]; intros [|k] Hk; simpl in *;
    try reflexivity; try lia.
  - by rewrite substring_whole.
  - change (String c s = String c (String.substring 0 k s +:+
              String.substring k (String.length s - k) s)).
    f_equal. apply IH. lia.
Qed.

(** [endswith] holds exactly of the strings that are some prefix followed
    by the suffix. *)
Lemma endswith_spec s suffix :
  endswith s suffix = true ↔ ∃ prefix, s = prefix +:+ suffix.
Proof.
  unfold endswith. rewrite andb_true_iff, Nat.leb_le, String.eqb_eq. split.
  - intros [Hlen Hsub].
    exists (String.substring 0 (String.length s - String.length suffix) s).
    rewrite <- Hsub at 2.
    replace (String.length suffix)
      with (String.length s - (String.length s - String.length suffix))%nat
      at 3 by lia.
    apply substring_split. lia.
  - intros [prefix ->]. rewrite length_append. split; [lia|].
    replace (String.length prefix + String.length suffix
             - String.length suffix)%nat
      with (String.length prefix) by lia.
    rewrite substring_skip_prefix. apply substring_whole.
Qed.

(** ** NativeSamReader.__init__ *)

Section NativeFacts.

Context {ReadRequirements SamHeader NativeBackend TfbamBackend : Type}.
Context (env : Env ReadRequirements SamHeader NativeBackend TfbamBackend).

Implicit Types (input_path : string) (rr : option ReadRequirements).
Implicit Types (aux : bool) (block_size seed : option Z).
Implicit Types (fraction : option pynum) (t : list (event ReadRequirements)).

(** An external call always shows in the log. *)
Lemma log_grows {E} (t : list E) (ev : E) (more : list E) :
  t ++ ev :: more ≠ t.
Proof.
  intros H. apply (f_equal length) in H.
  rewrite length_app in H. simpl in H. lia.
Qed.

(** The [.tfbam] branch, call by call. *)
Lemma NativeSamReader_init_tfbam input_path rr aux block_size fraction seed t :
  endswith input_path ".tfbam" = true →
  NativeSamReader_init env input_path rr aux block_size fraction seed t
  = match tfbam_lib env with
    | None =>
        (t ++ [Import "tfbam_lib"],
         inl (Exception ImportError
           [PyStr "tfbam_lib module not found, cannot read .tfbam files."]))
    | Some make_sam_reader =>
        let args :=
          {| tfbam_input_path := input_path;
             tfbam_read_requirements := rr;
             tfbam_unused_block_size := block_size;
             tfbam_downsample_fraction := fraction;
             tfbam_random_seed := seed |} in
        (t ++ [Import "tfbam_lib"; MakeSamReader args],
         match make_sam_reader args with
         | inl e =>
             if is_ImportError e then
               inl (Exception ImportError
                 [PyStr "tfbam_lib module not found, cannot read .tfbam files."])
             else inl e
         | inr reader => inr {| _reader := inl reader; header := None |}
         end)
    end.
Proof.
  intros Hext. unfold NativeSamReader_init. rewrite Hext.
  unfold bind, try_except_ImportError, import_tfbam_reader, external, raise,
    ret.
  destruct (tfbam_lib env) as [make_sam_reader|]; [|reflexivity].
  rewrite <- app_assoc. simpl.
  destruct (make_sam_reader _) as [e|reader]; [|reflexivity].
  destruct (is_ImportError e); reflexivity.
Qed.

(** The native branch once the fraction has passed the check (or needs
    none): the options are built from the arguments, and unless a field
    rejects the block size or the seed, [from_file] is called once with
    them. *)
Lemma NativeSamReader_init_native input_path rr aux block_size fraction seed t :
  endswith input_path ".tfbam" = false →
  match fraction with
  | Some x => ne_zero x = false ∨ zero_lt x && le_one x = true
  | None => True
  end →
  let options :=
    {| read_requirements := rr;
       aux_field_handling :=
         if aux then PARSE_ALL_AUX_FIELDS else SKIP_AUX_FIELDS;
       hts_block_size := or_zero block_size;
       downsample_fraction := fraction;
       random_seed := default 2928130004 seed |} in
  NativeSamReader_init env input_path rr aux block_size fraction seed t
  = match SamReaderOptions_error env (or_zero block_size)
            (default 2928130004 seed) with
    | Some e => (t, inl e)
    | None =>
        (t ++ [FromFile (encode_utf8 input_path) options],
         match from_file env (encode_utf8 input_path) options with
         | inl e => inl e
         | inr reader =>
             inr {| _reader := inr reader;
                    header := Some (backend_header env reader) |}
         end)
    end.
Proof.
  intros Hext Hok options. subst options.
  unfold NativeSamReader_init. rewrite Hext.
  unfold bind, new_SamReaderOptions.
  destruct fraction as [x|];
    [destruct Hok as [H|H]; rewrite H; [|destruct (ne_zero x)] |];
    simpl; unfold ret, raise, external; destruct seed; simpl;
    destruct (SamReaderOptions_error env _ _); try reflexivity;
    destruct (from_file env _ _); reflexivity.
Qed.

(** The native branch when the check fails. *)
Lemma NativeSamReader_init_invalid input_path rr aux block_size x seed t :
  endswith input_path ".tfbam" = false →
  ne_zero x = true →
  zero_lt x && le_one x = false →
  NativeSamReader_init env input_path rr aux block_size (Some x) seed t
  = (t, inl (Exception ValueError
       [PyStr "downsample_fraction must be in the interval (0.0, 1.0]";
        PyNum x])).
Proof.
  intros Hext Hnz Hout. unfold NativeSamReader_init. rewrite Hext.
  unfold bind. rewrite Hnz, Hout. reflexivity.
Qed.

End NativeFacts.

(** C2, as the code has it.  On a path that does not end in [.tfbam], a
    [downsample_fraction] that is not [None], is not zero and is not within
    (0.0, 1.0] makes the constructor raise [ValueError] carrying the
    fraction, with the log of external calls unchanged: no backend was
    opened. *)
Theorem NativeSamReader_init_rejects_fraction :
  ∀ {ReadRequirements SamHeader NativeBackend TfbamBackend : Type}
    (env : Env ReadRequirements SamHeader NativeBackend TfbamBackend)
    (input_path : string) (rr : option ReadRequirements) (aux : bool)
    (block_size : option Z) (x : pynum) (seed : option Z)
    (t : list (event ReadRequirements)),
    endswith input_path ".tfbam" = false →
    ne_zero x = true →
    zero_lt x && le_one x = false →
    NativeSamReader_init env input_path rr aux block_size (Some x) seed t
    = (t, inl (Exception ValueError
         [PyStr "downsample_fraction must be in the interval (0.0, 1.0]";
          PyNum x])).
Proof. intros. by apply NativeSamReader_init_invalid. Qed.

Lemma NativeSamReader_init_rejects_fraction_witness :
  (endswith "reads.bam" ".tfbam" = false
   ∧ ne_zero (PyFloat 1.5) = true
   ∧ zero_lt (PyFloat 1.5) && le_one (PyFloat 1.5) = false
   ∧ NativeSamReader_init example.env_without_tfbam "reads.bam"
       None false None (Some (PyFloat 1.5)) None []
     = ([], inl (Exception ValueError
          [PyStr "downsample_fraction must be in the interval (0.0, 1.0]";
           PyNum (PyFloat 1.5)])))
  ∧ (ne_zero (PyFloat (-0.1)) = true
     ∧ zero_lt (PyFloat (-0.1)) && le_one (PyFloat (-0.1)) = false
     ∧ NativeSamReader_init example.env_with_tfbam "reads.sam"
         None true (Some 1024) (Some (PyFloat (-0.1))) (Some 7) []
       = ([], inl (Exception ValueError
            [PyStr "downsample_fraction must be in the interval (0.0, 1.0]";
             PyNum (PyFloat (-0.1))]))).
Proof.
  split.
  - split; [reflexivity|]. split; [reflexivity|]. split; [reflexivity|].
    apply (NativeSamReader_init_rejects_fraction example.env_without_tfbam
             "reads.bam" None false None (PyFloat 1.5) None []);
      reflexivity.
  - split; [reflexivity|]. split; [reflexivity|].
    apply (NativeSamReader_init_rejects_fraction example.env_with_tfbam
             "reads.sam" None true (Some 1024) (PyFloat (-0.1)) (Some 7) []);
      reflexivity.
Defined.

(** C2, as stated, fails on the [.tfbam] branch: with the fraction 1.5 and
    [tfbam_lib] not installed, the constructor goes for the import and
    raises [ImportError]; it never raises [ValueError]. *)
Lemma NativeSamReader_init_tfbam_fraction_not_rejected :
  let outcome :=
    NativeSamReader_init example.env_without_tfbam "reads.tfbam"
      None false None (Some (PyFloat 1.5)) None [] in
  ne_zero (PyFloat 1.5) = true
  ∧ zero_lt (PyFloat 1.5) && le_one (PyFloat 1.5) = false
  ∧ outcome
    = ([Import "tfbam_lib"],
       inl (Exception ImportError
         [PyStr "tfbam_lib module not found, cannot read .tfbam files."]))
  ∧ (∀ t args, outcome ≠ (t, inl (Exception ValueError args))).
Proof.
  repeat split. intros t args. discriminate.
Qed.



(** C4. On a path ending in [.tfbam], with [tfbam_lib] not installed, the
    constructor raises [ImportError] after the failed import; no other
    backend is tried. *)
Theorem NativeSamReader_init_tfbam_missing :
  ∀ {ReadRequirements SamHeader NativeBackend TfbamBackend : Type}
    (env : Env ReadRequirements SamHeader NativeBackend TfbamBackend)
    (prefix : string) (rr : option ReadRequirements) (aux : bool)
    (block_size : option Z) (fraction : option pynum) (seed : option Z)
    (t : list (event ReadRequirements)),
    tfbam_lib env = None →
    NativeSamReader_init env (prefix +:+ ".tfbam") rr aux block_size
      fraction seed t
    = (t ++ [Import "tfbam_lib"],
       inl (Exception ImportError
         [PyStr "tfbam_lib module not found, cannot read .tfbam files."])).
Proof.
  intros ? ? ? ? env prefix rr aux block_size fraction seed t Hmissing.
  rewrite NativeSamReader_init_tfbam by (apply endswith_spec; eauto).
  by rewrite Hmissing.
Qed.

Lemma NativeSamReader_init_tfbam_missing_witness :
  tfbam_lib example.env_without_tfbam = None
  ∧ NativeSamReader_init example.env_without_tfbam ("reads" +:+ ".tfbam")
      None false None None None []
    = ([Import "tfbam_lib"],
       inl (Exception ImportError
         [PyStr "tfbam_lib module not found, cannot read .tfbam files."])).
Proof.
  split; [reflexivity|].
  apply (NativeSamReader_init_tfbam_missing example.env_without_tfbam
           "reads" None false None None None []).
  reflexivity.
Defined.




(** C10. On a path ending in [.tfbam] the fraction is not looked at: the
    constructor imports [tfbam_lib] and hands the fraction, whatever it is,
    to [make_sam_reader].  It raises [ImportError] when the import fails or
    when that call raises one; any other exception is the backend's own, and
    [from_file] is never called. *)
Theorem NativeSamReader_init_tfbam_unchecked :
  ∀ {ReadRequirements SamHeader NativeBackend TfbamBackend : Type}
    (env : Env ReadRequirements SamHeader NativeBackend TfbamBackend)
    (prefix : string) (rr : option ReadRequirements) (aux : bool)
    (block_size : option Z) (fraction : option pynum) (seed : option Z)
    (t : list (event ReadRequirements)),
    let input_path := prefix +:+ ".tfbam" in
    let not_found :=
      Exception ImportError
        [PyStr "tfbam_lib module not found, cannot read .tfbam files."] in
    NativeSamReader_init env input_path rr aux block_size fraction seed t
    = match tfbam_lib env with
      | None => (t ++ [Import "tfbam_lib"], inl not_found)
      | Some make_sam_reader =>
          let args :=
            {| tfbam_input_path := input_path;
               tfbam_read_requirements := rr;
               tfbam_unused_block_size := block_size;
               tfbam_downsample_fraction := fraction;
               tfbam_random_seed := seed |} in
          (t ++ [Import "tfbam_lib"; MakeSamReader args],
           match make_sam_reader args with
           | inl e => if is_ImportError e then inl not_found else inl e
           | inr reader => inr {| _reader := inl reader; header := None |}
           end)
      end.
Proof.
  intros ? ? ? ? env prefix rr aux block_size fraction seed t input_path
    not_found.
  apply NativeSamReader_init_tfbam, endswith_spec. by exists prefix.
Qed.

(** Where the seed field is a signed 64-bit integer, a seed of 2^64 with no
    fraction at all makes [SamReaderOptions] raise before [from_file] is
    called. *)
Example NativeSamReader_init_seed_out_of_range :
  NativeSamReader_init example.env_without_tfbam "reads.bam"
    None false None None (Some (2 ^ 64)) []
  = ([], inl (Exception ValueError [PyStr "Value out of range"])).
Proof. reflexivity. Qed.

(** With [tfbam_lib] installed, an out-of-range fraction reaches its
    [make_sam_reader] as it was given. *)
Example NativeSamReader_init_tfbam_gets_fraction :
  NativeSamReader_init example.env_with_tfbam "reads.tfbam"
    None false None (Some (PyFloat 1.5)) None []
  = ([Import "tfbam_lib";
      MakeSamReader
        {| tfbam_input_path := "reads.tfbam";
           tfbam_read_requirements := None;
           tfbam_unused_block_size := None;
           tfbam_downsample_fraction := Some (PyFloat 1.5);
           tfbam_random_seed := None |}],
     inr {| _reader := inl (); header := None |}).
Proof. reflexivity. Qed.

(** ** NativeSamWriter *)

(** C5. Constructing a [NativeSamWriter], directly or through
    [SamWriter._native_writer], and calling [write] raise
    [NotImplementedError] for every path, header and record, with no
    external call. *)
Theorem NativeSamWriter_not_implemented :
  ∀ (ReadRequirements SamHeader Proto WriterBackend : Type)
    (output_path : string) (header : SamHeader)
    (self : NativeSamWriter WriterBackend) (proto : Proto)
    (t : list (event ReadRequirements)),
    NativeSamWriter_init (WriterBackend:=WriterBackend) output_path header t
    = (t, inl (Exception NotImplementedError []))
    ∧ SamWriter_native_writer (WriterBackend:=WriterBackend)
        output_path header t
      = (t, inl (Exception NotImplementedError []))
    ∧ NativeSamWriter_write self proto t
      = (t, inl (Exception NotImplementedError [])).
Proof. intros. repeat split. Qed.

(** * Further properties *)

(** ** The generator behind [query] *)

(** [next] stops at the first element that satisfies the condition: what it
    skipped fails the condition, what it leaves is the rest of the list. *)
Lemma next_from_Some {A} (cond : A → bool) it x rest :
  next_from cond it = Some (x, rest) ↔
  ∃ skipped, it = skipped ++ x :: rest
             ∧ Forall (λ y, cond y = false) skipped
             ∧ cond x = true.
Proof.
  split.
  - revert x rest. induction it as [|y it IH]; intros x rest; simpl.
    + discriminate.
    + destruct (cond y) eqn:Ey.
      * intros [= -> ->]. exists []. by repeat split.
      * intros H. destruct (IH _ _ H) as (skipped & -> & Hskip & Hx).
        exists (y :: skipped). repeat split; [by constructor | exact Hx].
  - intros (skipped & -> & Hskip & Hx).
    induction Hskip as [|y skipped Hy _ IH]; simpl.
    + by rewrite Hx.
    + by rewrite Hy.
Qed.

(** X1. One [next] on [query(region)] scans no further than the first
    stored read that overlaps: it yields that read, every read before it
    does not overlap, and the suspended generator holds exactly the reads
    after it; the rest of the query is what that generator still yields.
    [StopIteration] on the first [next] means no stored read overlaps. *)
Theorem InMemorySamReader_query_next_first_overlap :
  ∀ (Read : Type) (read_range : Read → Range)
    (self : InMemorySamReader Read) (region : Range),
    let overlapping read := ranges.ranges_overlap region (read_range read) in
    match next (query read_range self region) with
    | None =>
        Forall (λ read, overlapping read = false) (reads self)
        ∧ consume (query read_range self region) = []
    | Some (read, g') =>
        overlapping read = true
        ∧ (∃ skipped,
             reads self = skipped ++ read :: gen_iter g'
             ∧ Forall (λ r, overlapping r = false) skipped)
        ∧ gen_cond g' = overlapping
        ∧ consume (query read_range self region) = read :: consume g'
    end.
Proof.
  intros Read read_range self region overlapping.
  rewrite (consume_next (query read_range self region)).
  unfold next, query. simpl.
  destruct (next_from _ (reads self)) as [[read rest]|] eqn:Hnext.
  - apply next_from_Some in Hnext as (skipped & Heq & Hskip & Hread).
    simpl. repeat split; [exact Hread | by exists skipped].
  - split; [by apply next_from_None | reflexivity].
Qed.

(** X2. A query over two lists of reads stored one after the other is the
    query over the first followed by the query over the second. *)
Theorem InMemorySamReader_query_app :
  ∀ (Read : Type) (read_range : Read → Range)
    (rs1 rs2 : list Read) (sorted sorted1 sorted2 : bool) (region : Range),
    consume (query read_range (InMemorySamReader_init (rs1 ++ rs2) sorted)
               region)
    = consume (query read_range (InMemorySamReader_init rs1 sorted1) region)
      ++ consume (query read_range (InMemorySamReader_init rs2 sorted2)
                    region).
Proof.
  intros. rewrite !query_filter. simpl. apply filter_app.
Qed.

(** X3. Storing the result of a query back into the reader and asking the
    same region again changes nothing, and narrowing by two regions gives
    the same reads in either order. *)
Theorem InMemorySamReader_query_requery :
  ∀ (Read : Type) (read_range : Read → Range)
    (self : InMemorySamReader Read) (sorted : bool) (region region' : Range),
    let narrowed r :=
      replace_reads self (consume (query read_range self r)) sorted in
    consume (query read_range (narrowed region) region)
    = consume (query read_range self region)
    ∧ consume (query read_range (narrowed region) region')
      = consume (query read_range (narrowed region') region).
Proof.
  intros Read read_range self sorted region region' narrowed.
  subst narrowed. rewrite !query_filter. simpl.
  rewrite ?query_filter. split.
  - by apply list_filter_filter_r.
  - rewrite !list_filter_filter. apply list_filter_iff. tauto.
Qed.

(** ** NativeSamReader.__init__, all outcomes *)

Section NativeOutcomes.

Context {ReadRequirements SamHeader NativeBackend TfbamBackend : Type}.
Context (env : Env ReadRequirements SamHeader NativeBackend TfbamBackend).

Implicit Types (input_path : string) (rr : option ReadRequirements).
Implicit Types (aux : bool) (block_size seed : option Z).
Implicit Types (fraction : option pynum) (t : list (event ReadRequirements)).

(** Whether the range check lets a fraction through. *)
Lemma fraction_accepted_or_not fraction :
  match fraction with
  | Some x => ne_zero x = false ∨ zero_lt x && le_one x = true
  | None => True
  end
  ∨ ∃ x, fraction = Some x ∧ ne_zero x = true
         ∧ zero_lt x && le_one x = false.
Proof.
  destruct fraction as [x|]; [|by left].
  destruct (ne_zero x) eqn:Hnz; [|left; by left].
  destruct (zero_lt x && le_one x) eqn:Hin; [left; by right|].
  right. by exists x.
Qed.

End NativeOutcomes.


(** X5. A construction that succeeds bound exactly one backend, chosen by
    the path alone.  On a path ending in [.tfbam] it is the reader
    [make_sam_reader] returned, and [header] is not set.  On any other path
    the fraction had passed the range check, the reader is the one
    [from_file] returned for the encoded path, and [header] is that
    reader's. *)
Theorem NativeSamReader_init_success_inv :
  ∀ {ReadRequirements SamHeader NativeBackend TfbamBackend : Type}
    (env : Env ReadRequirements SamHeader NativeBackend TfbamBackend)
    (input_path : string) (rr : option ReadRequirements) (aux : bool)
    (block_size : option Z) (fraction : option pynum) (seed : option Z)
    (t t' : list (event ReadRequirements))
    (self : NativeSamReader SamHeader NativeBackend TfbamBackend),
    NativeSamReader_init env input_path rr aux block_size fraction seed t
    = (t', inr self) →
    let args :=
      {| tfbam_input_path := input_path;
         tfbam_read_requirements := rr;
         tfbam_unused_block_size := block_size;
         tfbam_downsample_fraction := fraction;
         tfbam_random_seed := seed |} in
    let options :=
      {| read_requirements := rr;
         aux_field_handling :=
           if aux then PARSE_ALL_AUX_FIELDS else SKIP_AUX_FIELDS;
         hts_block_size := or_zero block_size;
         downsample_fraction := fraction;
         random_seed := default 2928130004 seed |} in
    (endswith input_path ".tfbam" = true
     ∧ t' = t ++ [Import "tfbam_lib"; MakeSamReader args]
     ∧ ∃ make_sam_reader reader,
         tfbam_lib env = Some make_sam_reader
         ∧ make_sam_reader args = inr reader
         ∧ self = {| _reader := inl reader; header := None |})
    ∨ (endswith input_path ".tfbam" = false
       ∧ t' = t ++ [FromFile (encode_utf8 input_path) options]
       ∧ match fraction with
         | Some x => ne_zero x = false ∨ zero_lt x && le_one x = true
         | None => True
         end
       ∧ ∃ reader,
           from_file env (encode_utf8 input_path) options = inr reader
           ∧ self = {| _reader := inr reader;
                       header := Some (backend_header env reader) |}).
Proof.
  intros ? ? ? ? env input_path rr aux block_size fraction seed t t' self.
  destruct (endswith input_path ".tfbam") eqn:Hext.
  - rewrite NativeSamReader_init_tfbam by exact Hext.
    intros H args options. left. split; [reflexivity|].
    destruct (tfbam_lib env) as [make_sam_reader|]; [|discriminate].
    simpl in H. fold args in H.
    destruct (make_sam_reader args) as [e|reader] eqn:Hmake.
    + destruct (is_ImportError e); discriminate.
    + injection H as <- <-. split; [reflexivity|].
      by exists make_sam_reader, reader.
  - destruct (fraction_accepted_or_not fraction)
      as [Hok | (x & -> & Hnz & Hout)].
    + rewrite NativeSamReader_init_native by assumption.
      intros H args options.
      destruct (SamReaderOptions_error env _ _); [discriminate|].
      right. split; [reflexivity|].
      fold options in H.
      destruct (from_file env (encode_utf8 input_path) options)
        as [e|reader] eqn:Hopen; [discriminate|].
      injection H as <- <-. repeat split; [exact Hok|].
      by exists reader.
    + rewrite NativeSamReader_init_invalid by assumption. discriminate.
Qed.

Lemma NativeSamReader_init_success_inv_witness :
  let options :=
    {| read_requirements := None;
       aux_field_handling := PARSE_ALL_AUX_FIELDS;
       hts_block_size := 4096;
       downsample_fraction := Some (PyFloat 0.25);
       random_seed := 11 |} in
  ∃ reader,
    from_file example.env_with_tfbam (encode_utf8 "reads.bam") options
    = inr reader
    ∧ ({| _reader := inr (); header := Some () |} : NativeSamReader () () ())
      = {| _reader := inr reader;
           header := Some (backend_header example.env_with_tfbam reader) |}.
Proof.
  intros options.
  destruct (NativeSamReader_init_success_inv example.env_with_tfbam
              "reads.bam" None true (Some 4096) (Some (PyFloat 0.25))
              (Some 11) [] [FromFile (encode_utf8 "reads.bam") options]
              {| _reader := inr (); header := Some () |} eq_refl)
    as [(Hext & _) | (_ & _ & _ & H)].
  - discriminate Hext.
  - exact H.
Defined.





(** X8. The import of [tfbam_lib] is attempted exactly for the paths made
    of some prefix followed by [.tfbam], and it is then the first thing the
    constructor does; for every other path the log never starts with it. *)
Theorem NativeSamReader_init_import_iff_suffix :
  ∀ {ReadRequirements SamHeader NativeBackend TfbamBackend : Type}
    (env : Env ReadRequirements SamHeader NativeBackend TfbamBackend)
    (input_path : string) (rr : option ReadRequirements) (aux : bool)
    (block_size : option Z) (fraction : option pynum) (seed : option Z)
    (t : list (event ReadRequirements)),
    (∃ more,
       fst (NativeSamReader_init env input_path rr aux block_size fraction
              seed t)
       = t ++ Import "tfbam_lib" :: more)
    ↔ ∃ prefix, input_path = prefix +:+ ".tfbam".
Proof.
  intros ? ? ? ? env input_path rr aux block_size fraction seed t.
  rewrite <- endswith_spec.
  destruct (endswith input_path ".tfbam") eqn:Hext.
  - split; [reflexivity|]. intros _.
    rewrite NativeSamReader_init_tfbam by exact Hext.
    destruct (tfbam_lib env); simpl; eexists; reflexivity.
  - split; [|discriminate]. intros [more H]. exfalso. revert H.
    destruct (fraction_accepted_or_not fraction)
      as [Hok | (x & -> & Hnz & Hout)].
    + rewrite NativeSamReader_init_native by assumption.
      destruct (SamReaderOptions_error env _ _); simpl; intros H.
      * symmetry in H. by apply log_grows in H.
      * apply app_inv_head in H. discriminate.
    + rewrite NativeSamReader_init_invalid by assumption. simpl.
      intros H. symmetry in H. by apply log_grows in H.
Qed.



(** X10. On a path that does not end in [.tfbam], an exception raised
    after an external call is the one [from_file] raised, unchanged, in the
    one call made with the options built from the arguments; the native
    branch neither swallows nor rewrites a backend error. *)
Theorem NativeSamReader_init_backend_error_unchanged :
  ∀ {ReadRequirements SamHeader NativeBackend TfbamBackend : Type}
    (env : Env ReadRequirements SamHeader NativeBackend TfbamBackend)
    (input_path : string) (rr : option ReadRequirements) (aux : bool)
    (block_size : option Z) (fraction : option pynum) (seed : option Z)
    (t t' : list (event ReadRequirements)) (e : exn),
    endswith input_path ".tfbam" = false →
    t' ≠ t →
    NativeSamReader_init env input_path rr aux block_size fraction seed t
    = (t', inl e) →
    let options :=
      {| read_requirements := rr;
         aux_field_handling :=
           if aux then PARSE_ALL_AUX_FIELDS else SKIP_AUX_FIELDS;
         hts_block_size := or_zero block_size;
         downsample_fraction := fraction;
         random_seed := default 2928130004 seed |} in
    t' = t ++ [FromFile (encode_utf8 input_path) options]
    ∧ from_file env (encode_utf8 input_path) options = inl e.
Proof.
  intros ? ? ? ? env input_path rr aux block_size fraction seed t t' e
    Hext Hlog.
  destruct (fraction_accepted_or_not fraction)
    as [Hok | (x & -> & Hnz & Hout)].
  - rewrite NativeSamReader_init_native by assumption.
    intros H options. fold options in H.
    destruct (SamReaderOptions_error env _ _).
    { injection H as H _. by symmetry in H. }
    destruct (from_file env (encode_utf8 input_path) options) as [e'|reader];
      [|discriminate].
    by injection H as <- <-.
  - rewrite NativeSamReader_init_invalid by assumption.
    intros [= H _]. by symmetry in H.
Qed.

Lemma NativeSamReader_init_backend_error_unchanged_witness :
  from_file example.env_unreadable (encode_utf8 "missing.bam")
    {| read_requirements := None;
       aux_field_handling := SKIP_AUX_FIELDS;
       hts_block_size := 0;
       downsample_fraction := Some (PyFloat 1);
       random_seed := 3 |}
  = inl (Exception ValueError [PyStr "Not found"]).
Proof.
  apply (NativeSamReader_init_backend_error_unchanged example.env_unreadable
           "missing.bam" None false None (Some (PyFloat 1)) (Some 3) []
           [FromFile (encode_utf8 "missing.bam")
              {| read_requirements := None;
                 aux_field_handling := SKIP_AUX_FIELDS;
                 hts_block_size := 0;
                 downsample_fraction := Some (PyFloat 1);
                 random_seed := 3 |}]).
  - reflexivity.
  - discriminate.
  - reflexivity.
Defined.
